(** * pytest-assume: soft assertions collected per test function

    A shallow embedding of [pytest_assume/plugin.py].  The module keeps two
    module-level lists, [_FAILED_ASSUMPTIONS] and [_ASSUMPTION_LOCALS];
    [assume] appends to them, and the hook wrapper [pytest_pyfunc_call]
    reads and clears them in its [finally] block.  The embedding threads
    these globals explicitly and keeps Python's exceptions as an error
    result. *)

From Stdlib Require Import List String Ascii ZArith Bool Lia DecimalString.
Import ListNotations.
Local Open Scope string_scope.

(** ** Python values and truthiness *)

(** The values [assume] is applied to.  [not expr] coerces any of them to
    a truth value. *)
#[local] Set Warnings "-register-all".
Inductive PyVal : Type :=
| PyNone
| PyBool (b : bool)
| PyInt (z : Z)
| PyStr (s : string)
| PyList (l : list PyVal).

Definition nonempty {A : Type} (l : list A) : bool :=
  match l with
  | [] => false
  | _ :: _ => true
  end.

Definition str_truthy (s : string) : bool :=
  match s with
  | EmptyString => false
  | String _ _ => true
  end.

(** [bool(v)]: [None], [False], [0], the empty string and the empty list
    are falsy, everything else is truthy. *)
Definition truthy (v : PyVal) : bool :=
  match v with
  | PyNone => false
  | PyBool b => b
  | PyInt z => negb (Z.eqb z 0)
  | PyStr s => str_truthy s
  | PyList l => nonempty l
  end.

(** ** Strings *)

Module PyString.

Definition nl : string := String "010"%char EmptyString.
Definition tab : string := String "009"%char EmptyString.

(** [str.isspace] on one character of a Python 3 [str], for code points
    below 256: tab to carriage return, the four separators before the
    space, the space, NEL and the no-break space. *)
Definition isspace (c : ascii) : bool :=
  let n := nat_of_ascii c in
  (((9 <=? n) && (n <=? 13)) || ((28 <=? n) && (n <=? 32))
   || (n =? 133) || (n =? 160))%nat.

(** [s.lstrip()] *)
Fixpoint lstrip (s : string) : string :=
  match s with
  | EmptyString => EmptyString
  | String c rest => if isspace c then lstrip rest else s
  end.

Fixpoint spaces (n : nat) : string :=
  match n with
  | O => EmptyString
  | S k => String " "%char (spaces k)
  end.

(** ["%-10s" % s] is [ljust 10 s]: pad on the right up to the width,
    never truncate. *)
Definition ljust (width : nat) (s : string) : string :=
  s ++ spaces (width - String.length s).

(** ["%s" % n] for a length and [format] of an [int]. *)
Definition str_of_nat (n : nat) : string :=
  NilZero.string_of_uint (Nat.to_uint n).

Definition str_of_int (z : Z) : string :=
  NilZero.string_of_int (Z.to_int z).

(** [sep.join(l)] *)
Definition join (sep : string) (l : list string) : string :=
  String.concat sep l.

End PyString.
Import PyString.

(** ** Exceptions and results *)

Inductive PyExc : Type :=
| TypeError (m : string)
| IndexError (m : string)
| FailedAssumption (m : string)
| TestError (cls : string) (m : string).

Inductive result (A : Type) : Type :=
| Ok (a : A)
| Raise (e : PyExc).
Arguments Ok {A} a.
Arguments Raise {A} e.

Definition bind {A B : Type} (r : result A) (k : A -> result B) : result B :=
  match r with
  | Ok a => k a
  | Raise e => Raise e
  end.

Notation "x <- r ;; k" := (bind r (fun x => k))
  (at level 61, r at next level, right associativity).

Definition returns {A : Type} (r : result A) : bool :=
  match r with
  | Ok _ => true
  | Raise _ => false
  end.

(** A traceback is the list of frames it walks through. *)
Definition Traceback : Type := list string.

(** [sys.exc_info()]-style triple: [(type, value, traceback)]. *)
Definition ExcInfo : Type := (string * PyExc * Traceback)%type.

(** ** The caller's stack record

    [inspect.stack()[1][0:5]] is [(frame, filename, line, funcname,
    contextlist)].  Of the frame only [f_locals] is read; [items()] walks
    it in the dictionary's order, so it is an association list here.
    [inspect] gives [None] for the context when the source of the frame
    cannot be read, and otherwise the list of context lines. *)
Record FrameInfo : Type := {
  f_locals : list (string * PyVal);
  filename : string;
  line : Z;
  funcname : string;
  contextlist : option (list string)
}.

(** [contextlist[0]] *)
Definition getitem0 (c : option (list string)) : result string :=
  match c with
  | None => Raise (TypeError "'NoneType' object is not subscriptable")
  | Some [] => Raise (IndexError "list index out of range")
  | Some (l :: _) => Ok l
  end.

(** ** Module state *)

(** The two module-level lists and the attribute [pytest._showlocals]
    ([None] while [pytest_configure] has not set it). *)
Record Globals : Type := {
  _FAILED_ASSUMPTIONS : list string;
  _ASSUMPTION_LOCALS : list (list string);
  _showlocals : option bool
}.

(** The state right after the module is imported. *)
Definition module_init : Globals :=
  {| _FAILED_ASSUMPTIONS := [];
     _ASSUMPTION_LOCALS := [];
     _showlocals := None |}.

(** [getattr(pytest, "_showlocals", None)] used as a condition. *)
Definition showlocals_on (st : Globals) : bool :=
  match _showlocals st with
  | Some b => b
  | None => false
  end.

(** ** Command line options *)

(** The options the plugin sees: pytest's own [showlocals] and the one
    registered by [pytest_addoption]. *)
Record Config : Type := {
  showlocals : bool;
  assume_max_repr_len : Z
}.

(** [pytest_addoption] registers [--assume-max-repr-len] with
    [default=240]: the configuration of a run that does not give the
    option. *)
Definition pytest_addoption (cfg_showlocals : bool) : Config :=
  {| showlocals := cfg_showlocals; assume_max_repr_len := 240 |}.

(** [pytest_configure]: only [showlocals] is read from the config. *)
Definition pytest_configure (config : Config) (st : Globals) : Globals :=
  {| _FAILED_ASSUMPTIONS := _FAILED_ASSUMPTIONS st;
     _ASSUMPTION_LOCALS := _ASSUMPTION_LOCALS st;
     _showlocals := Some (showlocals config) |}.

(** The result handed to a hook wrapper at its [yield]: [excinfo] is
    [None] when the test function returned. *)
Record CallOutcome : Type := {
  excinfo : option ExcInfo
}.

(** What the wrapper raises: the exception value, and the traceback it
    was raised with when one was passed explicitly. *)
Record Raised : Type := {
  raised_value : PyExc;
  raised_tb : option Traceback
}.

(** ** Test functions and schedules *)

(** One call [assume(expr, msg)] together with the stack record of the
    frame it is made from.  [msg] is the message to display, a string,
    empty by default. *)
Record Call : Type := {
  caller : FrameInfo;
  expr : PyVal;
  msg : string
}.

(** A test function as the plugin sees it: the calls of [assume] it makes,
    in program order, and the exception it ends with after them, if any. *)
Record TestBody : Type := {
  calls : list Call;
  ending : option ExcInfo
}.

(** What reaches the runner for one test function: the outcome of the
    function itself, or the exception raised by the wrapper in its place. *)
Inductive Verdict : Type :=
| Unchanged (o : CallOutcome)
| Replaced (r : Raised).

(** Steps of test functions that share the module: a call of [assume]
    made while the function [test] runs, and the [finally] block of the
    wrapper around [test]. *)
Inductive Event : Type :=
| Check (test : nat) (c : Call)
| Finish (test : nat) (o : CallOutcome).

Definition event_unit (e : Event) : nat :=
  match e with
  | Check u _ => u
  | Finish u _ => u
  end.

(** The steps of one test function. *)
Definition only (u : nat) (s : list Event) : list Event :=
  filter (fun e => Nat.eqb (event_unit e) u) s.

(** A test function with its identity, as scheduled by the runner. *)
Record Unit : Type := {
  uid : nat;
  ucalls : list Call;
  uoutcome : CallOutcome
}.

Definition block (u : Unit) : list Event :=
  map (Check (uid u)) (ucalls u) ++ [Finish (uid u) (uoutcome u)].

(** The first report filed for [u]. *)
Fixpoint report_of (u : nat) (rs : list (nat * option Raised))
  : option (option Raised) :=
  match rs with
  | [] => None
  | (v, r) :: rest => if Nat.eqb v u then Some r else report_of u rest
  end.

Definition exc_class (e : PyExc) : string :=
  match e with
  | TypeError _ => "TypeError"
  | IndexError _ => "IndexError"
  | FailedAssumption _ => "FailedAssumption"
  | TestError cls _ => cls
  end.

(** The same frame with other local variables. *)
Definition with_f_locals (ls : list (string * PyVal)) (fr : FrameInfo)
  : FrameInfo :=
  {| f_locals := ls;
     filename := filename fr;
     line := line fr;
     funcname := funcname fr;
     contextlist := contextlist fr |}.

(** The same call made with other local variables in the calling frame. *)
Definition relocal (f : FrameInfo -> list (string * PyVal)) (c : Call)
  : Call :=
  {| caller := with_f_locals (f (caller c)) (caller c);
     expr := expr c;
     msg := msg c |}.

Definition relocal_body (f : FrameInfo -> list (string * PyVal))
           (b : TestBody) : TestBody :=
  {| calls := map (relocal f) (calls b); ending := ending b |}.

(** What can happen to the module during a run: [pytest_configure], a
    call of [assume], the [finally] block of the wrapper. *)
Inductive Step : Type :=
| Configure (config : Config)
| Assume (c : Call)
| Finally (outcome : option CallOutcome).

(** ** Concrete services and inputs for examples *)

Module Sample.

Fixpoint strip_prefix (p s : string) : string :=
  match p, s with
  | String a p', String b s' =>
      if Ascii.eqb a b then strip_prefix p' s' else s
  | _, _ => s
  end.

(** [os.path.relpath] with the current directory [/repo]. *)
Definition relpath (path : string) : string :=
  if String.prefix "/repo/" path then strip_prefix "/repo/" path else path.

Fixpoint take (n : nat) (s : string) : string :=
  match n, s with
  | S k, String c rest => String c (take k rest)
  | _, _ => EmptyString
  end.

Definition plain_repr (v : PyVal) : string :=
  match v with
  | PyNone => "None"
  | PyBool true => "True"
  | PyBool false => "False"
  | PyInt z => str_of_int z
  | PyStr s => "'" ++ s ++ "'"
  | PyList _ => "[...]"
  end.

(** A formatter bounded by [maxsize]. *)
Definition saferepr (v : PyVal) (maxsize : Z) : string :=
  take (Z.to_nat maxsize) (plain_repr v).

Definition repr (e : PyExc) : string :=
  match e with
  | TypeError m => "TypeError('" ++ m ++ "')"
  | IndexError m => "IndexError('" ++ m ++ "')"
  | FailedAssumption m => "FailedAssumption('" ++ m ++ "')"
  | TestError cls m => cls ++ "('" ++ m ++ "')"
  end.

(** [pytest.assume(a == b)] on line 5 of [test_func], with [a = 1] and
    [b = 2]. *)
Definition frame_ab : FrameInfo :=
  {| f_locals := [("a", PyInt 1); ("b", PyInt 2)];
     filename := "/repo/test_sample.py";
     line := 5;
     funcname := "test_func";
     contextlist := Some ["    pytest.assume(a == b)" ++ nl] |}.

(** The same call from a frame whose source cannot be read. *)
Definition frame_nosource : FrameInfo :=
  {| f_locals := [("a", PyInt 1); ("b", PyInt 2)];
     filename := "<string>";
     line := 5;
     funcname := "test_func";
     contextlist := None |}.

(** [pytest.assume(len(s) == 3)] with a local string of ten letters. *)
Definition frame_long : FrameInfo :=
  {| f_locals := [("s", PyStr "abcdefghij")];
     filename := "/repo/test_sample.py";
     line := 7;
     funcname := "test_func";
     contextlist := Some ["    pytest.assume(len(s) == 3)" ++ nl] |}.

Definition call_false : Call :=
  {| caller := frame_ab; expr := PyBool false; msg := EmptyString |}.

Definition call_true : Call :=
  {| caller := frame_ab; expr := PyBool true; msg := EmptyString |}.

Definition call_msg : Call :=
  {| caller := frame_ab; expr := PyInt 0; msg := "a:1 b:2" |}.

Definition assertion_error : ExcInfo :=
  ("AssertionError", TestError "AssertionError" "assert 1 == 2",
   ["test_func"; "failing_func"]).

Definition passed : CallOutcome := {| excinfo := None |}.

(** Three calls, two of them falsy, then a failing [assert]. *)
Definition body_mixed : TestBody :=
  {| calls := [call_false; call_true; call_msg];
     ending := Some assertion_error |}.

Definition body_passing : TestBody :=
  {| calls := [call_true]; ending := None |}.

(** Two test functions: the first fails one assumption, the second
    makes no call of [assume]. *)
Definition unit_one : Unit :=
  {| uid := 1; ucalls := [call_false]; uoutcome := passed |}.

Definition unit_two : Unit :=
  {| uid := 2; ucalls := []; uoutcome := passed |}.

(** The second function finishes while the first is still running. *)
Definition interleaved : list Event :=
  [Check 1 call_false; Finish 2 passed; Finish 1 passed].

(** The call from the frame without source: falsy, no message. *)
Definition call_nosource : Call :=
  {| caller := frame_nosource; expr := PyBool false; msg := EmptyString |}.

(** A run in which a check fails after the wrapper of the first test
    function has finished, in its teardown. *)
Definition teardown_failure : list Step :=
  [Configure (pytest_addoption false);
   Finally (Some passed);
   Assume call_false].

(** The module after import and [pytest_configure]. *)
Definition configured (b : bool) : Globals :=
  pytest_configure (pytest_addoption b) module_init.

End Sample.

Section Plugin.

(** Services of the standard library and of [py], taken as given and
    total: [os.path.relpath] (relative to the current directory),
    [saferepr(obj, maxsize)] whose second argument defaults to 240, and
    [repr] on exception values. *)
Variable relpath : string -> string.
Variable saferepr : PyVal -> Z -> string.
Variable repr : PyExc -> string.

Definition saferepr_default_maxsize : Z := 240.

(** ** [assume] *)

(** The formatted entry of one failed assumption. *)
Definition format_entry (fname : string) (ln : Z) (context : string)
  : string :=
  fname ++ ":" ++ str_of_int ln ++ ": AssumptionFailure" ++ nl
        ++ ">>" ++ tab ++ context.

(** ["\t%-10s = %s" % (name, saferepr(val))] over [f_locals.items()]. *)
Definition pretty_local (binding : string * PyVal) : string :=
  tab ++ ljust 10 (fst binding) ++ " = "
      ++ saferepr (snd binding) saferepr_default_maxsize.

Definition pretty_locals (caller : FrameInfo) : list string :=
  map pretty_local (f_locals caller).

(** [contextlist[0].lstrip() if not msg else msg] *)
Definition context_of (caller : FrameInfo) (msg : string) : result string :=
  if negb (str_truthy msg)
  then (l <- getitem0 (contextlist caller) ;; Ok (lstrip l))
  else Ok msg.

Definition append_failure (entry : string) (st : Globals) : Globals :=
  {| _FAILED_ASSUMPTIONS := _FAILED_ASSUMPTIONS st ++ [entry];
     _ASSUMPTION_LOCALS := _ASSUMPTION_LOCALS st;
     _showlocals := _showlocals st |}.

Definition append_locals (ls : list string) (st : Globals) : Globals :=
  {| _FAILED_ASSUMPTIONS := _FAILED_ASSUMPTIONS st;
     _ASSUMPTION_LOCALS := _ASSUMPTION_LOCALS st ++ [ls];
     _showlocals := _showlocals st |}.

(** [assume(expr, msg)] called from the frame [caller]. *)
Definition assume (caller : FrameInfo) (expr : PyVal) (msg : string)
           (st : Globals) : result (PyVal * Globals) :=
  if negb (truthy expr) then
    let fname := relpath (filename caller) in
    context <- context_of caller msg ;;
    let entry := format_entry fname (line caller) context in
    let st1 := append_failure entry st in
    let st2 := if showlocals_on st1
               then append_locals (pretty_locals caller) st1
               else st1 in
    Ok (PyBool false, st2)
  else Ok (PyBool true, st).

(** ** The hook wrapper *)

Definition clear_buffers (st : Globals) : Globals :=
  {| _FAILED_ASSUMPTIONS := [];
     _ASSUMPTION_LOCALS := [];
     _showlocals := _showlocals st |}.

Definition root_msg (failed_count : nat) : string :=
  nl ++ str_of_nat failed_count ++ " Failed Assumptions:" ++ nl.

(** ["{0}\nLocals:\n{1}\n\n".format(assumption, "\n".join(flocals))] *)
Definition with_locals (pair : string * list string) : string :=
  fst pair ++ nl ++ "Locals:" ++ nl ++ join nl (snd pair) ++ nl ++ nl.

Definition longrepr (failed : list string) (locs : list (list string))
  : list string :=
  if nonempty locs
  then map with_locals (combine failed locs)
  else [join (nl ++ nl) failed].

Definition original_failure (value : PyExc) : string :=
  nl ++ "Original Failure: " ++ nl ++ ">> " ++ repr value ++ nl.

(** The [finally] block of [pytest_pyfunc_call].  [outcome] is what
    [yield] delivered, [None] when the [yield] itself was left by an
    exception.  The result is the new module state and the exception
    the block raises, if any. *)
Definition pytest_pyfunc_call (outcome : option CallOutcome) (st : Globals)
  : Globals * option Raised :=
  let failed_assumptions := _FAILED_ASSUMPTIONS st in
  let assumption_locals := _ASSUMPTION_LOCALS st in
  if nonempty failed_assumptions then
    let failed_count := List.length failed_assumptions in
    let body := String.concat EmptyString
                  (longrepr failed_assumptions assumption_locals) in
    let st' := clear_buffers st in
    match outcome with
    | Some {| excinfo := Some (_, value, tb) |} =>
        (st', Some {| raised_value :=
                        FailedAssumption
                          (original_failure value
                             ++ root_msg failed_count ++ body);
                      raised_tb := Some tb |})
    | _ =>
        (st', Some {| raised_value :=
                        FailedAssumption (root_msg failed_count ++ body);
                      raised_tb := None |})
    end
  else (st, None).

(** ** Running test functions *)

(** The calls of a test function in program order.  An exception raised
    by [assume] leaves the function: the remaining calls are not made,
    and the traceback runs from the calling function into [assume]. *)
Fixpoint run_calls (cs : list Call) (st : Globals)
  : Globals * option ExcInfo :=
  match cs with
  | [] => (st, None)
  | c :: rest =>
      match assume (caller c) (expr c) (msg c) st with
      | Ok (_, st') => run_calls rest st'
      | Raise e =>
          (st, Some (exc_class e, e, [funcname (caller c); "assume"]))
      end
  end.

(** The outcome pluggy builds from the call of the test function. *)
Definition run_body (b : TestBody) (st : Globals) : Globals * CallOutcome :=
  match run_calls (calls b) st with
  | (st', None) => (st', {| excinfo := ending b |})
  | (st', Some info) => (st', {| excinfo := Some info |})
  end.

(** One test function under the wrapper. *)
Definition run_test (b : TestBody) (st : Globals) : Globals * Verdict :=
  let (st1, o) := run_body b st in
  match pytest_pyfunc_call (Some o) st1 with
  | (st2, None) => (st2, Unchanged o)
  | (st2, Some r) => (st2, Replaced r)
  end.

(** Test functions run one after the other in one process. *)
Fixpoint run_session (tests : list TestBody) (st : Globals)
  : Globals * list Verdict :=
  match tests with
  | [] => (st, [])
  | b :: rest =>
      let (st1, v) := run_test b st in
      let (st2, vs) := run_session rest st1 in
      (st2, v :: vs)
  end.

(** Steps of several test functions on the one module state, in the
    order in which they happen.  A call on which [assume] raises leaves
    the state as it is.  The result lists, for each [Finish], the
    function and what its wrapper raised. *)
Fixpoint run_events (s : list Event) (st : Globals)
  : Globals * list (nat * option Raised) :=
  match s with
  | [] => (st, [])
  | Check _ c :: rest =>
      match assume (caller c) (expr c) (msg c) st with
      | Ok (_, st') => run_events rest st'
      | Raise _ => run_events rest st
      end
  | Finish u o :: rest =>
      let (st1, r) := pytest_pyfunc_call (Some o) st in
      let (st2, rs) := run_events rest st1 in
      (st2, (u, r) :: rs)
  end.

(** Every function is reported as if it had the module to itself. *)
Definition isolated (s : list Event) (st : Globals) : Prop :=
  forall u,
    report_of u (snd (run_events s st))
    = report_of u (snd (run_events (only u s) st)).

(** ** Reading a call *)

Definition has_context (c : FrameInfo) : bool :=
  match contextlist c with
  | Some (_ :: _) => true
  | _ => false
  end.

(** The call can be recorded: a message was given, or the source line of
    the call is known. *)
Definition recordable (c : Call) : bool :=
  str_truthy (msg c) || has_context (caller c).

Definition fails (c : Call) : bool := negb (truthy (expr c)).

Definition source_line (c : FrameInfo) : string :=
  match contextlist c with
  | Some (l :: _) => l
  | _ => EmptyString
  end.

(** The context shown for a failed call. *)
Definition call_context (c : Call) : string :=
  if str_truthy (msg c) then msg c else lstrip (source_line (caller c)).

(** The entry recorded for a failed call. *)
Definition call_entry (c : Call) : string :=
  format_entry (relpath (filename (caller c))) (line (caller c))
               (call_context c).

(** Both buffers hold nothing. *)
Definition buffers_empty (st : Globals) : Prop :=
  _FAILED_ASSUMPTIONS st = [] /\ _ASSUMPTION_LOCALS st = [].

(** The calls that are made before the test function is left: those up
    to the first call [assume] raises on. *)
Fixpoint made (cs : list Call) : list Call :=
  match cs with
  | [] => []
  | c :: rest =>
      if fails c && negb (recordable c) then [] else c :: made rest
  end.

(** The calls that leave a record. *)
Definition recorded (cs : list Call) : list Call := filter fails (made cs).

(** The block shown for a failed call when locals are captured. *)
Definition item_with_locals (c : Call) : string :=
  call_entry c ++ nl ++ "Locals:" ++ nl
    ++ join nl (pretty_locals (caller c)) ++ nl ++ nl.

(** Leading whitespace, as [lstrip] sees it. *)
Fixpoint all_space (s : string) : bool :=
  match s with
  | EmptyString => true
  | String c rest => isspace c && all_space rest
  end.

Definition starts_with_space (s : string) : bool :=
  match s with
  | EmptyString => false
  | String c _ => isspace c
  end.

(** The state after a failed call that can be recorded. *)
Definition record (c : Call) (st : Globals) : Globals :=
  {| _FAILED_ASSUMPTIONS := _FAILED_ASSUMPTIONS st ++ [call_entry c];
     _ASSUMPTION_LOCALS :=
       _ASSUMPTION_LOCALS st
         ++ (if showlocals_on st then [pretty_locals (caller c)] else []);
     _showlocals := _showlocals st |}.

(** The locals buffer never runs ahead of the failure buffer. *)
Definition buffers_ok (st : Globals) : Prop :=
  List.length (_ASSUMPTION_LOCALS st) <= List.length (_FAILED_ASSUMPTIONS st).

(** What the wrapper of [u] raises when [u] runs alone from [st]. *)
Definition unit_report (u : Unit) (st : Globals) : option Raised :=
  snd (pytest_pyfunc_call (Some (uoutcome u))
         (fst (run_events (map (Check (uid u)) (ucalls u)) st))).

(** The line put in front of the report for a test function that ended
    with an exception. *)
Definition original_prefix (e : option ExcInfo) : string :=
  match e with
  | Some (_, value, _) =>
      nl ++ "Original Failure: " ++ nl ++ ">> " ++ repr value ++ nl
  | None => EmptyString
  end.

Definition original_tb (e : option ExcInfo) : option Traceback :=
  match e with
  | Some (_, _, tb) => Some tb
  | None => None
  end.

(** Any sequence of steps on the module state.  A call on which
    [assume] raises leaves the state as it is.  The result lists what
    each [finally] block raised. *)
Fixpoint run_steps (steps : list Step) (st : Globals)
  : Globals * list (option Raised) :=
  match steps with
  | [] => (st, [])
  | Configure config :: rest => run_steps rest (pytest_configure config st)
  | Assume c :: rest =>
      match assume (caller c) (expr c) (msg c) st with
      | Ok (_, st') => run_steps rest st'
      | Raise _ => run_steps rest st
      end
  | Finally outcome :: rest =>
      let (st1, r) := pytest_pyfunc_call outcome st in
      let (st2, rs) := run_steps rest st1 in
      (st2, r :: rs)
  end.

(** The [excinfo] the wrapper looks at. *)
Definition outcome_excinfo (outcome : option CallOutcome) : option ExcInfo :=
  match outcome with
  | Some o => excinfo o
  | None => None
  end.

(** A step that records nothing: anything but a call of [assume] on a
    falsy expression. *)
Definition quiet (s : Step) : bool :=
  match s with
  | Assume c => negb (fails c)
  | _ => true
  end.

(** The same frame with another context. *)
Definition with_context (ctx : option (list string)) (fr : FrameInfo)
  : FrameInfo :=
  {| f_locals := f_locals fr;
     filename := filename fr;
     line := line fr;
     funcname := funcname fr;
     contextlist := ctx |}.

(** * Properties *)

(** ** [lstrip] *)

Lemma lstrip_spec (s : string) :
  exists ws, s = ws ++ lstrip s /\ all_space ws = true
             /\ starts_with_space (lstrip s) = false.
Proof.
  induction s as [|c rest IH]; simpl.
  - exists EmptyString. repeat split.
  - destruct (isspace c) eqn:Hc.
    + destruct IH as (ws & Heq & Hws & Hhd).
      exists (String c ws). simpl. rewrite Hc, Hws, <- Heq.
      repeat split. exact Hhd.
    + exists EmptyString. simpl. rewrite Hc. repeat split.
Qed.

(** ** One call of [assume] *)

Lemma assume_truthy caller e m st :
  truthy e = true -> assume caller e m st = Ok (PyBool true, st).
Proof. intros H. unfold assume. rewrite H. reflexivity. Qed.

Lemma assume_message caller e m st :
  truthy e = false -> str_truthy m = true ->
  assume caller e m st
  = Ok (PyBool false,
        let st1 := append_failure
                     (format_entry (relpath (filename caller))
                                   (line caller) m) st in
        if showlocals_on st1
        then append_locals (pretty_locals caller) st1 else st1).
Proof.
  intros He Hm. unfold assume, context_of. rewrite He, Hm. reflexivity.
Qed.

Lemma assume_source caller e m st l ls :
  truthy e = false -> str_truthy m = false ->
  contextlist caller = Some (l :: ls) ->
  assume caller e m st
  = Ok (PyBool false,
        let st1 := append_failure
                     (format_entry (relpath (filename caller))
                                   (line caller) (lstrip l)) st in
        if showlocals_on st1
        then append_locals (pretty_locals caller) st1 else st1).
Proof.
  intros He Hm Hc. unfold assume, context_of. rewrite He, Hm, Hc.
  reflexivity.
Qed.

(** [assume] returns exactly when the expression is truthy, a message
    is given, or the source line of the call is known. *)
Lemma assume_returns_iff caller e m st :
  returns (assume caller e m st)
  = truthy e || str_truthy m || has_context caller.
Proof.
  unfold assume, context_of, has_context.
  destruct (truthy e); [reflexivity|].
  destruct (str_truthy m); [reflexivity|]. simpl.
  destruct (contextlist caller) as [[|l ls]|]; reflexivity.
Qed.

Lemma assume_call (c : Call) (st : Globals) :
  assume (caller c) (expr c) (msg c) st
  = if fails c
    then if recordable c
         then Ok (PyBool false, record c st)
         else match contextlist (caller c) with
              | None =>
                  Raise (TypeError "'NoneType' object is not subscriptable")
              | _ => Raise (IndexError "list index out of range")
              end
    else Ok (PyBool true, st).
Proof.
  unfold fails, recordable, has_context, record, call_entry, call_context,
    source_line, assume, context_of, showlocals_on, append_locals,
    append_failure.
  destruct c as [fr e m]; simpl.
  destruct (truthy e); simpl; [reflexivity|].
  destruct (str_truthy m); simpl.
  - destruct (_showlocals st) as [[|]|]; simpl;
      rewrite ?app_nil_r; reflexivity.
  - destruct (contextlist fr) as [[|l ls]|]; simpl; try reflexivity.
    destruct (_showlocals st) as [[|]|]; simpl;
      rewrite ?app_nil_r; reflexivity.
Qed.

(** ** Sequences of calls *)

Lemma record_showlocals c st : showlocals_on (record c st) = showlocals_on st.
Proof. reflexivity. Qed.

Lemma record_ok c st : buffers_ok st -> buffers_ok (record c st).
Proof.
  unfold buffers_ok, record; simpl. rewrite !length_app.
  destruct (showlocals_on st); simpl; lia.
Qed.

Lemma made_all cs :
  (forall c, In c cs -> fails c = true -> recordable c = true) ->
  made cs = cs.
Proof.
  induction cs as [|c rest IH]; intros H; simpl; [reflexivity|].
  destruct (fails c) eqn:Hf; simpl.
  - rewrite (H c (or_introl eq_refl) Hf). simpl.
    rewrite IH; [reflexivity|]. intros d Hd. apply H. right. exact Hd.
  - rewrite IH; [reflexivity|]. intros d Hd. apply H. right. exact Hd.
Qed.

Lemma run_calls_fields cs : forall st,
  _FAILED_ASSUMPTIONS (fst (run_calls cs st))
  = (_FAILED_ASSUMPTIONS st ++ map call_entry (recorded cs))%list
  /\ _ASSUMPTION_LOCALS (fst (run_calls cs st))
     = (_ASSUMPTION_LOCALS st
          ++ (if showlocals_on st
              then map (fun c => pretty_locals (caller c)) (recorded cs)
              else []))%list
  /\ _showlocals (fst (run_calls cs st)) = _showlocals st.
Proof.
  unfold recorded.
  induction cs as [|c rest IH]; intros st; simpl.
  - rewrite !app_nil_r. destruct (showlocals_on st); rewrite ?app_nil_r; auto.
  - rewrite assume_call.
    destruct (fails c) eqn:Hf; simpl.
    + destruct (recordable c) eqn:Hr; simpl.
      * rewrite Hf. destruct (IH (record c st)) as (H1 & H2 & H3).
        rewrite H1, H2, H3, record_showlocals. simpl.
        rewrite <- !app_assoc. simpl.
        destruct (showlocals_on st); simpl; auto.
      * rewrite !app_nil_r.
        destruct (contextlist (caller c)) as [[|]|]; simpl;
          destruct (showlocals_on st); rewrite ?app_nil_r; auto.
    + rewrite Hf. apply IH.
Qed.

Lemma run_calls_no_exception cs : forall st,
  (forall c, In c cs -> fails c = true -> recordable c = true) ->
  snd (run_calls cs st) = None.
Proof.
  induction cs as [|c rest IH]; intros st H; simpl; [reflexivity|].
  rewrite assume_call.
  destruct (fails c) eqn:Hf.
  - rewrite (H c (or_introl eq_refl) Hf). apply IH.
    intros d Hd. apply H. right. exact Hd.
  - apply IH. intros d Hd. apply H. right. exact Hd.
Qed.

Lemma run_calls_ok cs st :
  buffers_ok st -> buffers_ok (fst (run_calls cs st)).
Proof.
  unfold buffers_ok.
  destruct (run_calls_fields cs st) as (H1 & H2 & _). rewrite H1, H2.
  rewrite !length_app. destruct (showlocals_on st); simpl;
    rewrite ?length_map; lia.
Qed.

(** ** The wrapper *)

Lemma nonempty_false {A : Type} (l : list A) : nonempty l = false -> l = [].
Proof. destruct l; [reflexivity|discriminate]. Qed.

Lemma nonempty_true {A : Type} (l : list A) : l <> [] -> nonempty l = true.
Proof. destruct l; [congruence|reflexivity]. Qed.

Lemma wrapper_empty outcome st :
  _FAILED_ASSUMPTIONS st = [] -> pytest_pyfunc_call outcome st = (st, None).
Proof. intros H. unfold pytest_pyfunc_call. rewrite H. reflexivity. Qed.

Lemma wrapper_nonempty outcome st :
  _FAILED_ASSUMPTIONS st <> [] ->
  pytest_pyfunc_call outcome st
  = (clear_buffers st,
     Some {| raised_value :=
               FailedAssumption
                 (original_prefix
                    (match outcome with
                     | Some o => excinfo o
                     | None => None
                     end)
                  ++ root_msg (List.length (_FAILED_ASSUMPTIONS st))
                  ++ String.concat EmptyString
                       (longrepr (_FAILED_ASSUMPTIONS st)
                                 (_ASSUMPTION_LOCALS st)));
             raised_tb :=
               original_tb (match outcome with
                            | Some o => excinfo o
                            | None => None
                            end) |}).
Proof.
  intros H. unfold pytest_pyfunc_call. rewrite (nonempty_true _ H).
  destruct outcome as [[[[[ty v] tb]|]]|]; reflexivity.
Qed.

Lemma wrapper_fst outcome st :
  _FAILED_ASSUMPTIONS (fst (pytest_pyfunc_call outcome st)) = []
  /\ _showlocals (fst (pytest_pyfunc_call outcome st)) = _showlocals st
  /\ (buffers_ok st ->
      _ASSUMPTION_LOCALS (fst (pytest_pyfunc_call outcome st)) = []).
Proof.
  destruct (_FAILED_ASSUMPTIONS st) as [|e es] eqn:Hf.
  - rewrite wrapper_empty by exact Hf. simpl. rewrite Hf.
    repeat split. unfold buffers_ok. rewrite Hf. simpl.
    destruct (_ASSUMPTION_LOCALS st); simpl; [reflexivity|lia].
  - rewrite wrapper_nonempty by (rewrite Hf; discriminate).
    simpl. repeat split.
Qed.

Lemma globals_eq (a b : Globals) :
  _FAILED_ASSUMPTIONS a = _FAILED_ASSUMPTIONS b ->
  _ASSUMPTION_LOCALS a = _ASSUMPTION_LOCALS b ->
  _showlocals a = _showlocals b -> a = b.
Proof. destruct a, b; simpl; intros; subst; reflexivity. Qed.

Lemma longrepr_with_locals (rec : list Call) :
  rec <> [] ->
  longrepr (map call_entry rec)
           (map (fun c => pretty_locals (caller c)) rec)
  = map item_with_locals rec.
Proof.
  intros Hne. unfold longrepr.
  rewrite nonempty_true by (destruct rec; [congruence|discriminate]).
  clear Hne. induction rec as [|c rest IH]; simpl; [reflexivity|].
  rewrite IH. reflexivity.
Qed.

Lemma longrepr_without_locals (failed : list string) :
  String.concat EmptyString (longrepr failed []) = join (nl ++ nl) failed.
Proof. reflexivity. Qed.

Lemma filter_nonempty {A : Type} (f : A -> bool) (l : list A) :
  (exists x, In x l /\ f x = true) -> filter f l <> [].
Proof.
  intros (x & Hin & Hfx) Hnil.
  assert (Hx : In x (filter f l)) by (apply filter_In; split; assumption).
  rewrite Hnil in Hx. exact Hx.
Qed.

(** The whole of one test function, told by the calls that leave a
    record. *)
Lemma run_test_spec (b : TestBody) (st : Globals) :
  buffers_empty st ->
  run_test b st
  = let o := snd (run_body b st) in
    match recorded (calls b) with
    | [] => (st, Unchanged o)
    | _ :: _ =>
        (st,
         Replaced
           {| raised_value :=
                FailedAssumption
                  (original_prefix (excinfo o)
                   ++ root_msg (List.length (recorded (calls b)))
                   ++ (if showlocals_on st
                       then String.concat EmptyString
                              (map item_with_locals (recorded (calls b)))
                       else join (nl ++ nl)
                              (map call_entry (recorded (calls b)))));
              raised_tb := original_tb (excinfo o) |})
    end.
Proof.
  intros [Hf Hl]. unfold run_test.
  destruct (run_body b st) as [st1 o] eqn:Hb. simpl.
  assert (Hst1 : st1 = fst (run_calls (calls b) st)).
  { unfold run_body in Hb. destruct (run_calls (calls b) st) as [s [e|]];
      inversion Hb; reflexivity. }
  destruct (run_calls_fields (calls b) st) as (H1 & H2 & H3).
  rewrite <- Hst1, Hf in H1. rewrite <- Hst1, Hl in H2.
  rewrite <- Hst1 in H3. simpl in H1, H2.
  destruct (recorded (calls b)) as [|c rest] eqn:Hrec.
  - simpl in H1. rewrite wrapper_empty by exact H1.
    f_equal. apply globals_eq; [congruence| |exact H3].
    rewrite H2, Hl. destruct (showlocals_on st); reflexivity.
  - rewrite wrapper_nonempty by (rewrite H1; discriminate).
    assert (Hclear : clear_buffers st1 = st).
    { apply globals_eq; simpl; [congruence|congruence|exact H3]. }
    rewrite Hclear, H1, H2, length_map. simpl excinfo.
    destruct (showlocals_on st).
    + rewrite longrepr_with_locals by discriminate. reflexivity.
    + rewrite longrepr_without_locals. reflexivity.
Qed.

Lemma run_body_outcome (b : TestBody) (st : Globals) :
  (forall c, In c (calls b) -> fails c = true -> recordable c = true) ->
  snd (run_body b st) = {| excinfo := ending b |}.
Proof.
  intros H. unfold run_body.
  pose proof (run_calls_no_exception (calls b) st H) as Hn.
  destruct (run_calls (calls b) st) as [s [e|]]; simpl in *;
    [discriminate|reflexivity].
Qed.

Lemma run_calls_truthy cs : forall st,
  (forall c, In c cs -> truthy (expr c) = true) ->
  run_calls cs st = (st, None).
Proof.
  induction cs as [|c rest IH]; intros st H; simpl; [reflexivity|].
  rewrite assume_truthy by (apply H; left; reflexivity).
  apply IH. intros d Hd. apply H. right. exact Hd.
Qed.

Lemma combine_app_eq {A B : Type} (a a' : list A) (b b' : list B) :
  List.length a = List.length b ->
  combine (a ++ a') (b ++ b') = (combine a b ++ combine a' b')%list.
Proof.
  revert b. induction a as [|x a IH]; intros [|y b] H; simpl in *;
    try discriminate; [reflexivity|].
  rewrite IH by (injection H; auto). reflexivity.
Qed.

Lemma combine_map_same {A B C : Type} (f : A -> B) (g : A -> C) (l : list A) :
  combine (map f l) (map g l) = map (fun x => (f x, g x)) l.
Proof. induction l as [|x l IH]; simpl; [reflexivity|]. rewrite IH. reflexivity. Qed.

(** ** The claims *)

(** C1.  [assume] is meant never to raise, whatever [expr] and [msg] are.
    The code does raise: for a falsy [expr] and no message, called from a
    frame whose source cannot be read ([inspect] gives [None] for the
    context), [contextlist[0]] raises [TypeError] out of [assume], in
    every module state, and nothing is recorded. *)
Theorem assume_raises_without_source (st : Globals) :
  assume Sample.frame_nosource (PyBool false) EmptyString st
  = Raise (TypeError "'NoneType' object is not subscriptable").
Proof. reflexivity. Qed.

(** The report when every falsy call can be recorded.  Start a test
    function with empty buffers and let it make any sequence of calls of
    [assume], every falsy one with a message or a readable source line,
    at least one of them falsy.  Then the wrapper
    raises [FailedAssumption]; its message is the line about the original
    failure (empty when the function ended normally), then the header
    [\n<N> Failed Assumptions:\n] with [N] the number of falsy calls,
    then one block per falsy call in call order: the entries joined by a
    blank line, or with [--showlocals] each entry followed by its
    locals. *)
Theorem report_lists_each_failed_call (b : TestBody) (st : Globals) :
  buffers_empty st ->
  (forall c, In c (calls b) -> fails c = true -> recordable c = true) ->
  (exists c, In c (calls b) /\ fails c = true) ->
  let failed := filter fails (calls b) in
  snd (run_test b st)
  = Replaced
      {| raised_value :=
           FailedAssumption
             (original_prefix (ending b)
              ++ (nl ++ str_of_nat (List.length failed)
                     ++ " Failed Assumptions:" ++ nl)
              ++ (if showlocals_on st
                  then String.concat EmptyString
                         (map item_with_locals failed)
                  else join (nl ++ nl) (map call_entry failed)));
         raised_tb := original_tb (ending b) |}.
Proof.
  intros Hst Hrec Hex failed.
  rewrite (run_test_spec b st Hst). cbv zeta.
  rewrite (run_body_outcome b st Hrec). simpl excinfo.
  unfold recorded. rewrite (made_all _ Hrec). fold failed.
  pose proof (filter_nonempty fails (calls b) Hex) as Hne. fold failed in Hne.
  destruct failed as [|c rest]; [congruence|]. reflexivity.
Qed.

(** C3.  When the failure buffer is not empty and the test function
    ended with an exception, the wrapper raises [FailedAssumption] whose
    message starts with [\nOriginal Failure: \n>> <repr>\n], continues
    with the count header and the report, and which carries the
    traceback of the original exception. *)
Theorem original_failure_prefixed_and_traceback_kept
        (st : Globals) (ty : string) (value : PyExc) (tb : Traceback) :
  _FAILED_ASSUMPTIONS st <> [] ->
  pytest_pyfunc_call (Some {| excinfo := Some (ty, value, tb) |}) st
  = (clear_buffers st,
     Some {| raised_value :=
               FailedAssumption
                 ((nl ++ "Original Failure: " ++ nl ++ ">> "
                      ++ repr value ++ nl)
                  ++ (nl ++ str_of_nat (List.length (_FAILED_ASSUMPTIONS st))
                         ++ " Failed Assumptions:" ++ nl)
                  ++ String.concat EmptyString
                       (longrepr (_FAILED_ASSUMPTIONS st)
                                 (_ASSUMPTION_LOCALS st)));
             raised_tb := Some tb |}).
Proof. intros H. rewrite wrapper_nonempty by exact H. reflexivity. Qed.

(** C4.  With an empty failure buffer the [finally] block raises nothing
    and changes nothing, whatever the outcome; so a test function whose
    calls of [assume] are all truthy reaches the runner with its own
    outcome: passed when it returned, its own exception otherwise. *)
Theorem empty_buffer_keeps_outcome
        (b : TestBody) (st : Globals) (outcome : option CallOutcome) :
  _FAILED_ASSUMPTIONS st = [] ->
  (forall c, In c (calls b) -> truthy (expr c) = true) ->
  pytest_pyfunc_call outcome st = (st, None)
  /\ run_test b st = (st, Unchanged {| excinfo := ending b |}).
Proof.
  intros Hf Ht. split; [apply wrapper_empty; exact Hf|].
  unfold run_test, run_body. rewrite (run_calls_truthy _ st Ht).
  rewrite wrapper_empty by exact Hf. reflexivity.
Qed.

(** C5 (amended).  Whenever the call can return (the expression is
    truthy, a message is given, or the source line is known), [assume]
    returns the truth value of [expr] as a boolean: [True] for a truthy
    [expr], [False] for a falsy one.  For a boolean [expr] that is [expr]
    itself. *)
Theorem assume_returns_truth_value
        (fr : FrameInfo) (e : PyVal) (m : string) (st : Globals) :
  truthy e || str_truthy m || has_context fr = true ->
  (exists st', assume fr e m st = Ok (PyBool (truthy e), st'))
  /\ (forall b, e = PyBool b -> PyBool (truthy e) = e).
Proof.
  intros H. split.
  - pose proof (assume_call {| caller := fr; expr := e; msg := m |} st) as Hc.
    unfold fails, recordable in Hc. simpl in Hc. rewrite Hc.
    destruct (truthy e); simpl in *; [eexists; reflexivity|].
    rewrite H. eexists; reflexivity.
  - intros b ->. reflexivity.
Qed.

(** C6.  A failed check appends one entry of the form
    [<relpath>:<line>: AssumptionFailure\n>>\t<context>], built from the
    relative path and the line of the calling frame.  The context is the
    message as given when it is not empty; otherwise it is the source
    line of the call without its leading whitespace. *)
Theorem failed_check_entry
        (fr : FrameInfo) (e : PyVal) (m : string) (st : Globals) :
  truthy e = false ->
  (str_truthy m = true ->
   exists st',
     assume fr e m st = Ok (PyBool false, st')
     /\ _FAILED_ASSUMPTIONS st'
        = app (_FAILED_ASSUMPTIONS st)
              [relpath (filename fr) ++ ":" ++ str_of_int (line fr)
                 ++ ": AssumptionFailure" ++ nl ++ ">>" ++ tab ++ m])
  /\ (forall l ls,
        str_truthy m = false -> contextlist fr = Some (l :: ls) ->
        exists st',
          assume fr e m st = Ok (PyBool false, st')
          /\ _FAILED_ASSUMPTIONS st'
             = app (_FAILED_ASSUMPTIONS st)
                   [relpath (filename fr) ++ ":" ++ str_of_int (line fr)
                      ++ ": AssumptionFailure" ++ nl ++ ">>" ++ tab
                      ++ lstrip l]
          /\ exists ws, l = ws ++ lstrip l /\ all_space ws = true
                        /\ starts_with_space (lstrip l) = false).
Proof.
  intros He. split.
  - intros Hm. rewrite (assume_message fr e m st He Hm).
    eexists. split; [reflexivity|].
    cbv zeta. destruct (showlocals_on _); reflexivity.
  - intros l ls Hm Hc. rewrite (assume_source fr e m st l ls He Hm Hc).
    eexists. split; [reflexivity|]. split; [|apply lstrip_spec].
    cbv zeta. destruct (showlocals_on _); reflexivity.
Qed.

Lemma empty_ok st : buffers_empty st -> buffers_ok st.
Proof. intros [Hf Hl]. unfold buffers_ok. rewrite Hf, Hl. simpl. lia. Qed.

Lemma wrapper_drains outcome st :
  buffers_ok st -> buffers_empty (fst (pytest_pyfunc_call outcome st)).
Proof.
  intros Hok. destruct (wrapper_fst outcome st) as (H1 & _ & H3).
  split; [exact H1|apply H3; exact Hok].
Qed.

Lemma run_test_fst (b : TestBody) (st : Globals) :
  fst (run_test b st)
  = fst (pytest_pyfunc_call (Some (snd (run_body b st)))
           (fst (run_calls (calls b) st))).
Proof.
  unfold run_test, run_body.
  destruct (run_calls (calls b) st) as [s [e|]]; simpl;
    destruct (pytest_pyfunc_call _ s) as [s2 [r|]]; reflexivity.
Qed.

Lemma run_test_drains (b : TestBody) (st : Globals) :
  buffers_ok st -> buffers_empty (fst (run_test b st)).
Proof.
  intros Hok. rewrite run_test_fst. apply wrapper_drains.
  apply run_calls_ok. exact Hok.
Qed.

Lemma run_session_drains (tests : list TestBody) : forall st,
  buffers_empty st -> buffers_empty (fst (run_session tests st)).
Proof.
  induction tests as [|b rest IH]; intros st Hst; simpl; [exact Hst|].
  pose proof (run_test_drains b st (empty_ok st Hst)) as Hb.
  destruct (run_test b st) as [st1 v]. simpl in Hb.
  specialize (IH st1 Hb).
  destruct (run_session rest st1) as [st2 vs]. exact IH.
Qed.

(** C10.  With [--showlocals] on and the two buffers of equal length,
    any sequence of calls keeps them of equal length: every recorded
    failure appends its entry to the one and the locals of its frame to
    the other.  So [zip] pairs the i-th entry with the locals captured at
    the i-th recorded failure: the report of the [finally] block shows,
    in order, each entry that was pending followed by the locals at its
    position, then each newly recorded entry followed by the locals of
    its own frame.  The block empties both buffers. *)
Theorem locals_buffer_tracks_failures (cs : list Call) (st : Globals) :
  showlocals_on st = true ->
  List.length (_FAILED_ASSUMPTIONS st) = List.length (_ASSUMPTION_LOCALS st) ->
  let st' := fst (run_calls cs st) in
  _FAILED_ASSUMPTIONS st'
  = app (_FAILED_ASSUMPTIONS st) (map call_entry (recorded cs))
  /\ _ASSUMPTION_LOCALS st'
     = app (_ASSUMPTION_LOCALS st)
           (map (fun c => pretty_locals (caller c)) (recorded cs))
  /\ List.length (_FAILED_ASSUMPTIONS st')
     = List.length (_ASSUMPTION_LOCALS st')
  /\ combine (_FAILED_ASSUMPTIONS st') (_ASSUMPTION_LOCALS st')
     = app (combine (_FAILED_ASSUMPTIONS st) (_ASSUMPTION_LOCALS st))
           (map (fun c => (call_entry c, pretty_locals (caller c)))
                (recorded cs))
  /\ (forall outcome,
        snd (pytest_pyfunc_call outcome st')
        = match _FAILED_ASSUMPTIONS st' with
          | [] => None
          | _ :: _ =>
              Some {| raised_value :=
                        FailedAssumption
                          (original_prefix
                             (match outcome with
                              | Some o => excinfo o
                              | None => None
                              end)
                           ++ (nl ++ str_of_nat
                                       (List.length
                                          (_FAILED_ASSUMPTIONS st'))
                                  ++ " Failed Assumptions:" ++ nl)
                           ++ String.concat EmptyString
                                (app
                                   (map (fun p =>
                                           fst p ++ nl ++ "Locals:" ++ nl
                                             ++ join nl (snd p) ++ nl ++ nl)
                                        (combine (_FAILED_ASSUMPTIONS st)
                                                 (_ASSUMPTION_LOCALS st)))
                                   (map item_with_locals (recorded cs))));
                      raised_tb :=
                        original_tb (match outcome with
                                     | Some o => excinfo o
                                     | None => None
                                     end) |}
          end)
  /\ forall outcome,
       buffers_empty (fst (pytest_pyfunc_call outcome st')).
Proof.
  intros Hon Hlen st'.
  destruct (run_calls_fields cs st) as (H1 & H2 & _).
  rewrite Hon in H2. fold st' in H1, H2.
  assert (Hlen' : List.length (_FAILED_ASSUMPTIONS st')
                  = List.length (_ASSUMPTION_LOCALS st')).
  { rewrite H1, H2, !length_app, !length_map. lia. }
  assert (Hzip : combine (_FAILED_ASSUMPTIONS st') (_ASSUMPTION_LOCALS st')
                 = app (combine (_FAILED_ASSUMPTIONS st)
                                (_ASSUMPTION_LOCALS st))
                       (map (fun c =>
                               (call_entry c, pretty_locals (caller c)))
                            (recorded cs))).
  { rewrite H1, H2, combine_app_eq by exact Hlen.
    rewrite combine_map_same. reflexivity. }
  split; [exact H1|]. split; [exact H2|]. split; [exact Hlen'|].
  split; [exact Hzip|]. split.
  - intros outcome.
    destruct (nonempty (_FAILED_ASSUMPTIONS st')) eqn:Hne.
    + assert (Hf' : _FAILED_ASSUMPTIONS st' <> [])
        by (intros Hnil; rewrite Hnil in Hne; discriminate Hne).
      assert (Hl' : _ASSUMPTION_LOCALS st' <> []).
      { intros Hnil. rewrite Hnil in Hlen'.
        destruct (_FAILED_ASSUMPTIONS st'); [congruence|discriminate]. }
      rewrite wrapper_nonempty by exact Hf'. unfold longrepr.
      rewrite (nonempty_true _ Hl'), Hzip, map_app, map_map.
      destruct (_FAILED_ASSUMPTIONS st'); [congruence|reflexivity].
    + apply nonempty_false in Hne.
      rewrite (wrapper_empty outcome st' Hne), Hne. reflexivity.
  - intros outcome. apply wrapper_drains. unfold buffers_ok. lia.
Qed.

(** The option registered by [pytest_addoption] does not reach [assume]:
    two configurations that differ only in it behave alike. *)
Lemma configure_ignores_max_repr_len
      (cfg : Config) (n : Z) (fr : FrameInfo) (e : PyVal) (m : string)
      (st : Globals) :
  assume fr e m
         (pytest_configure
            {| showlocals := showlocals cfg; assume_max_repr_len := n |} st)
  = assume fr e m (pytest_configure cfg st).
Proof. reflexivity. Qed.

(** ** Schedules *)

Lemma run_events_app (a b : list Event) : forall st,
  run_events (a ++ b) st
  = (fst (run_events b (fst (run_events a st))),
     (snd (run_events a st)
        ++ snd (run_events b (fst (run_events a st))))%list).
Proof.
  induction a as [|e a IH]; intros st; simpl.
  - destruct (run_events b st); reflexivity.
  - destruct e as [u c|u o].
    + destruct (assume (caller c) (expr c) (msg c) st) as [[v st']|x];
        apply IH.
    + destruct (pytest_pyfunc_call (Some o) st) as [st1 r].
      rewrite IH. destruct (run_events a st1) as [st2 rs]. reflexivity.
Qed.

Lemma run_checks (u : nat) (cs : list Call) : forall st,
  snd (run_events (map (Check u) cs) st) = []
  /\ _showlocals (fst (run_events (map (Check u) cs) st)) = _showlocals st
  /\ (buffers_ok st -> buffers_ok (fst (run_events (map (Check u) cs) st))).
Proof.
  induction cs as [|c rest IH]; intros st; simpl; [auto|].
  rewrite assume_call.
  destruct (fails c); [destruct (recordable c)|]; try apply IH.
  - destruct (IH (record c st)) as (H1 & H2 & H3).
    repeat split; [exact H1|exact H2|].
    intros Hok. apply H3, record_ok, Hok.
  - destruct (contextlist (caller c)) as [[|]|]; apply IH.
Qed.

Lemma run_block (u : Unit) (st : Globals) :
  buffers_empty st ->
  run_events (block u) st = (st, [(uid u, unit_report u st)]).
Proof.
  intros Hst. unfold block, unit_report. rewrite run_events_app.
  destruct (run_checks (uid u) (ucalls u) st) as (H1 & H2 & H3).
  rewrite H1. simpl.
  set (st1 := fst (run_events (map (Check (uid u)) (ucalls u)) st)) in *.
  pose proof (wrapper_drains (Some (uoutcome u)) st1
                (H3 (empty_ok st Hst))) as [Hf Hl].
  destruct (wrapper_fst (Some (uoutcome u)) st1) as (_ & Hs & _).
  destruct (pytest_pyfunc_call (Some (uoutcome u)) st1) as [st2 r].
  simpl in *. f_equal. destruct Hst as [Hf0 Hl0].
  apply globals_eq; congruence.
Qed.

Lemma only_app (v : nat) (a b : list Event) :
  only v (a ++ b) = (only v a ++ only v b)%list.
Proof. apply filter_app. Qed.

Lemma only_block_same (u : Unit) : only (uid u) (block u) = block u.
Proof.
  unfold only, block. rewrite filter_app. simpl. rewrite Nat.eqb_refl.
  f_equal. induction (ucalls u) as [|c rest IH]; simpl; [reflexivity|].
  rewrite Nat.eqb_refl, IH. reflexivity.
Qed.

Lemma only_block_other (v : nat) (u : Unit) :
  uid u <> v -> only v (block u) = [].
Proof.
  intros Hne. apply Nat.eqb_neq in Hne.
  unfold only, block. rewrite filter_app. simpl. rewrite Hne.
  induction (ucalls u) as [|c rest IH]; simpl; [reflexivity|].
  rewrite Hne. exact IH.
Qed.

Lemma only_absent (v : nat) (units : list Unit) :
  ~ In v (map uid units) -> only v (flat_map block units) = [].
Proof.
  induction units as [|u rest IH]; intros Hnot; simpl; [reflexivity|].
  rewrite only_app, only_block_other, IH; simpl in *; tauto.
Qed.

(** C9 (amended).  The buffers are one pair of lists shared by all test
    functions of the process.  When the functions run one after the
    other, each with its calls followed by its own [finally] block, and
    the first starts with empty buffers, every function is reported
    exactly as if it had run alone. *)
Theorem sequential_units_isolated (units : list Unit) (st : Globals) :
  buffers_empty st ->
  NoDup (map uid units) ->
  isolated (flat_map block units) st.
Proof.
  intros Hst. unfold isolated.
  induction units as [|u rest IH]; intros Hnd v; simpl; [reflexivity|].
  inversion Hnd as [|x l Hnotin Hnd']; subst.
  rewrite only_app, !run_events_app, !(run_block u st Hst). simpl.
  destruct (Nat.eqb (uid u) v) eqn:Huv.
  - apply Nat.eqb_eq in Huv. subst v.
    rewrite only_block_same, (only_absent _ _ Hnotin), app_nil_r.
    rewrite (run_block u st Hst). simpl. rewrite Nat.eqb_refl. reflexivity.
  - apply Nat.eqb_neq in Huv.
    rewrite (only_block_other v u Huv). simpl. apply IH. exact Hnd'.
Qed.

(** ** Further properties of the module *)

Lemma firstn_own_length {A : Type} (a b : list A) :
  firstn (List.length a) (a ++ b) = a.
Proof. induction a as [|x a IH]; simpl; [reflexivity|]. rewrite IH. reflexivity. Qed.

Lemma combine_longer_left {A B : Type} (a a' : list A) (b : list B) :
  List.length a = List.length b -> combine (a ++ a') b = combine a b.
Proof.
  revert b. induction a as [|x a IH]; intros [|y b] H; simpl in *;
    try discriminate.
  - destruct a'; reflexivity.
  - rewrite IH by (injection H; auto). reflexivity.
Qed.

Lemma string_length_app (a b : string) :
  String.length (a ++ b) = String.length a + String.length b.
Proof. induction a as [|c a IH]; simpl; [reflexivity|]. rewrite IH. reflexivity. Qed.

Lemma spaces_length (n : nat) : String.length (spaces n) = n.
Proof. induction n as [|n IH]; simpl; [reflexivity|]. rewrite IH. reflexivity. Qed.

Lemma prefix_app (a b : string) : String.prefix a (a ++ b) = true.
Proof.
  induction a as [|c a IH]; simpl; [destruct b; reflexivity|].
  destruct (ascii_dec c c) as [_|Hne]; [exact IH|congruence].
Qed.

Lemma run_steps_ok (steps : list Step) : forall st,
  buffers_ok st -> buffers_ok (fst (run_steps steps st)).
Proof.
  induction steps as [|[config|c|outcome] rest IH]; intros st Hok; simpl.
  - exact Hok.
  - apply IH. exact Hok.
  - rewrite assume_call.
    destruct (fails c); [destruct (recordable c)|]; try (apply IH; exact Hok).
    + apply IH, record_ok, Hok.
    + destruct (contextlist (caller c)) as [[|]|]; apply IH; exact Hok.
  - pose proof (wrapper_drains outcome st Hok) as Hd.
    destruct (pytest_pyfunc_call outcome st) as [st1 r]. simpl in Hd.
    specialize (IH st1 (empty_ok st1 Hd)).
    destruct (run_steps rest st1) as [st2 rs]. exact IH.
Qed.

Lemma made_until (cs rest : list Call) (bad : Call) :
  (forall c, In c cs -> fails c = true -> recordable c = true) ->
  fails bad = true -> recordable bad = false ->
  made (cs ++ bad :: rest) = cs.
Proof.
  intros H Hf Hr. induction cs as [|c cs IH]; simpl.
  - rewrite Hf, Hr. reflexivity.
  - destruct (fails c) eqn:Hc; simpl.
    + rewrite (H c (or_introl eq_refl) Hc). simpl.
      rewrite IH; [reflexivity|]. intros d Hd. apply H. right. exact Hd.
    + rewrite IH; [reflexivity|]. intros d Hd. apply H. right. exact Hd.
Qed.

Lemma run_calls_crash (cs rest : list Call) (bad : Call) :
  (forall c, In c cs -> fails c = true -> recordable c = true) ->
  fails bad = true -> str_truthy (msg bad) = false ->
  contextlist (caller bad) = None ->
  forall st,
    snd (run_calls (cs ++ bad :: rest) st)
    = Some ("TypeError",
            TypeError "'NoneType' object is not subscriptable",
            [funcname (caller bad); "assume"]).
Proof.
  intros H Hf Hm Hc. induction cs as [|c cs IH]; intros st; simpl.
  - rewrite assume_call, Hf. unfold recordable, has_context.
    rewrite Hm, Hc. reflexivity.
  - rewrite assume_call.
    assert (H' : forall d, In d cs -> fails d = true -> recordable d = true)
      by (intros d Hd; apply H; right; exact Hd).
    destruct (fails c) eqn:Hfc.
    + rewrite (H c (or_introl eq_refl) Hfc). apply IH. exact H'.
    + apply IH. exact H'.
Qed.

(** X1.  With a truthy expression or a message, [assume] does not look
    at the context of the calling frame: whatever the context is, also
    when the source cannot be read, the call has the same result and
    leaves the same state. *)
Theorem message_spares_context
        (fr : FrameInfo) (ctx : option (list string))
        (e : PyVal) (m : string) (st : Globals) :
  truthy e || str_truthy m = true ->
  assume (with_context ctx fr) e m st = assume fr e m st.
Proof.
  intros H. unfold assume, context_of.
  destruct (truthy e); simpl in *; [reflexivity|].
  rewrite H. reflexivity.
Qed.

(** X2.  Calls of [assume] only append: whatever calls follow, the
    entries and the locals that were in the buffers are still there, in
    place and unchanged, and [pytest._showlocals] is as it was. *)
Theorem earlier_records_kept (cs : list Call) (st : Globals) :
  let st' := fst (run_calls cs st) in
  firstn (List.length (_FAILED_ASSUMPTIONS st)) (_FAILED_ASSUMPTIONS st')
  = _FAILED_ASSUMPTIONS st
  /\ firstn (List.length (_ASSUMPTION_LOCALS st)) (_ASSUMPTION_LOCALS st')
     = _ASSUMPTION_LOCALS st
  /\ List.length (_FAILED_ASSUMPTIONS st)
     <= List.length (_FAILED_ASSUMPTIONS st')
  /\ _showlocals st' = _showlocals st.
Proof.
  intros st'. destruct (run_calls_fields cs st) as (H1 & H2 & H3).
  fold st' in H1, H2, H3. rewrite H1, H2, !firstn_own_length, length_app.
  repeat split; [lia|exact H3].
Qed.

(** X4.  When the locals buffer is not empty but shorter than the
    failure buffer, [zip] stops at the shorter one: the report shows a
    block for the first entries only, each with the locals at the same
    position, while the header still counts every entry. *)
Theorem report_stops_at_shorter_buffer
        (outcome : option CallOutcome) (st : Globals)
        (shown dropped : list string) :
  _FAILED_ASSUMPTIONS st = (shown ++ dropped)%list ->
  shown <> [] ->
  List.length shown = List.length (_ASSUMPTION_LOCALS st) ->
  snd (pytest_pyfunc_call outcome st)
  = Some {| raised_value :=
              FailedAssumption
                (original_prefix (outcome_excinfo outcome)
                 ++ (nl ++ str_of_nat (List.length shown
                                       + List.length dropped)
                        ++ " Failed Assumptions:" ++ nl)
                 ++ String.concat EmptyString
                      (map with_locals
                           (combine shown (_ASSUMPTION_LOCALS st))));
            raised_tb := original_tb (outcome_excinfo outcome) |}.
Proof.
  intros Hf Hne Hlen.
  rewrite wrapper_nonempty
    by (rewrite Hf; destruct shown; [congruence|discriminate]).
  simpl. rewrite Hf, length_app. unfold longrepr.
  rewrite nonempty_true.
  - rewrite combine_longer_left by exact Hlen. reflexivity.
  - intros Hnil. rewrite Hnil in Hlen. destruct shown; [congruence|].
    discriminate Hlen.
Qed.

(** X5.  From the freshly imported module, whatever sequence of
    [pytest_configure], calls of [assume] and [finally] blocks happens,
    the locals buffer never holds more than the failure buffer; so the
    next [finally] block leaves both buffers empty. *)
Theorem locals_never_outnumber_failures
        (steps : list Step) (outcome : option CallOutcome) :
  let st := fst (run_steps steps module_init) in
  List.length (_ASSUMPTION_LOCALS st) <= List.length (_FAILED_ASSUMPTIONS st)
  /\ buffers_empty (fst (pytest_pyfunc_call outcome st)).
Proof.
  intros st.
  assert (Hok : buffers_ok st).
  { apply run_steps_ok. unfold buffers_ok. simpl. lia. }
  split; [exact Hok|apply wrapper_drains; exact Hok].
Qed.

(** X6.  A test function that starts with empty buffers leaves the
    module exactly as it found it; so in a session every test function
    gets the verdict it gets when run alone, whatever ran before it. *)
Theorem session_verdicts_independent
        (tests : list TestBody) (st : Globals) :
  buffers_empty st ->
  run_session tests st = (st, map (fun b => snd (run_test b st)) tests).
Proof.
  intros Hst. induction tests as [|b rest IH]; simpl; [reflexivity|].
  assert (Hfst : fst (run_test b st) = st).
  { rewrite (run_test_spec b st Hst). cbv zeta.
    destruct (recorded (calls b)); reflexivity. }
  destruct (run_test b st) as [st1 v]. simpl in Hfst. subst st1.
  rewrite IH. reflexivity.
Qed.

(** X7.  The line for one local variable is the tab, the name padded
    with spaces to ten characters and never cut, then [ = ] and the
    formatted value: for names of up to ten characters the values start
    in the same column, a longer name is shown in full. *)
Theorem pretty_local_layout (name : string) (v : PyVal) :
  exists head,
    pretty_local (name, v)
    = head ++ " = " ++ saferepr v saferepr_default_maxsize
    /\ String.length head = 1 + Nat.max 10 (String.length name)
    /\ String.prefix (tab ++ name) head = true.
Proof.
  exists (tab ++ ljust 10 name). unfold pretty_local, ljust. simpl fst.
  simpl snd. split; [|split].
  - reflexivity.
  - rewrite !string_length_app, spaces_length.
    change (String.length tab) with 1. lia.
  - change (tab ++ name ++ spaces (10 - String.length name))
      with (String "009"%char (name ++ spaces (10 - String.length name))).
    change (tab ++ name) with (String "009"%char name).
    simpl. destruct (ascii_dec "009" "009") as [_|Hne]; [|congruence].
    apply prefix_app.
Qed.

(** X8.  [lstrip] removes exactly the leading run of whitespace: for a
    line made of whitespace followed by text that does not start with
    whitespace, the result is that text, with inner and trailing
    whitespace kept. *)
Theorem lstrip_removes_leading_run (ws text : string) :
  all_space ws = true ->
  starts_with_space text = false ->
  lstrip (ws ++ text) = text.
Proof.
  intros Hws Htext. induction ws as [|c ws IH]; simpl.
  - destruct text as [|c rest]; [reflexivity|].
    simpl in *. rewrite Htext. reflexivity.
  - simpl in Hws. apply andb_true_iff in Hws as [Hc Hrest].
    rewrite Hc. apply IH. exact Hrest.
Qed.

(** X9.  The [finally] block raises exactly when the failure buffer is
    not empty.  What it raises is always a [FailedAssumption]; it
    carries the traceback of the test function's exception when there
    was one, and none otherwise. *)
Theorem wrapper_raises_iff_failures_pending
        (outcome : option CallOutcome) (st : Globals) :
  (snd (pytest_pyfunc_call outcome st) = None
   <-> _FAILED_ASSUMPTIONS st = [])
  /\ (forall r,
        snd (pytest_pyfunc_call outcome st) = Some r ->
        (exists m, raised_value r = FailedAssumption m)
        /\ raised_tb r = original_tb (outcome_excinfo outcome)).
Proof.
  destruct (_FAILED_ASSUMPTIONS st) as [|x xs] eqn:Hf.
  - rewrite wrapper_empty by exact Hf. simpl.
    split; [tauto|intros r Hr; discriminate Hr].
  - rewrite wrapper_nonempty by (rewrite Hf; discriminate). simpl.
    split; [split; intros H; discriminate H|].
    intros r Hr. injection Hr as <-. simpl. split; [eexists|]; reflexivity.
Qed.

(** X10.  When a call of [assume] raises in the middle of a test
    function (falsy expression, no message, unreadable source), the
    calls after it are not made, and the failures recorded before it are
    still reported: the [TypeError] is shown as the original failure in
    front of them, with its traceback.  With no failure recorded before,
    the [TypeError] reaches the runner as it is. *)
Theorem unreadable_call_ends_test
        (cs rest : list Call) (bad : Call) (e : option ExcInfo)
        (st : Globals) :
  buffers_empty st ->
  (forall c, In c cs -> fails c = true -> recordable c = true) ->
  fails bad = true ->
  str_truthy (msg bad) = false ->
  contextlist (caller bad) = None ->
  let crash := ("TypeError",
                TypeError "'NoneType' object is not subscriptable",
                [funcname (caller bad); "assume"]) in
  let failed := filter fails cs in
  run_test {| calls := cs ++ bad :: rest; ending := e |} st
  = (st,
     match failed with
     | [] => Unchanged {| excinfo := Some crash |}
     | _ :: _ =>
         Replaced
           {| raised_value :=
                FailedAssumption
                  (original_prefix (Some crash)
                   ++ (nl ++ str_of_nat (List.length failed)
                          ++ " Failed Assumptions:" ++ nl)
                   ++ (if showlocals_on st
                       then String.concat EmptyString
                              (map item_with_locals failed)
                       else join (nl ++ nl) (map call_entry failed)));
              raised_tb := Some [funcname (caller bad); "assume"] |}
     end).
Proof.
  intros Hst Hcs Hf Hm Hc crash failed.
  assert (Hr : recordable bad = false).
  { unfold recordable, has_context. rewrite Hm, Hc. reflexivity. }
  rewrite (run_test_spec _ st Hst). cbv zeta. simpl calls.
  unfold recorded. rewrite (made_until cs rest bad Hcs Hf Hr). fold failed.
  assert (Ho : snd (run_body {| calls := cs ++ bad :: rest; ending := e |} st)
               = {| excinfo := Some crash |}).
  { unfold run_body. simpl calls.
    pose proof (run_calls_crash cs rest bad Hcs Hf Hm Hc st) as Hx.
    destruct (run_calls (cs ++ bad :: rest) st) as [s1 [info|]];
      simpl in Hx; [|discriminate]. injection Hx as ->. reflexivity. }
  rewrite Ho. destruct failed; reflexivity.
Qed.

(** X11.  What [pytest_configure] read last decides the capture: after
    it, a failed call that can be recorded appends its entry, and
    appends the locals of its frame exactly when the configuration has
    [showlocals] set.  Pending entries and locals are left in place by
    [pytest_configure]. *)
Theorem configure_decides_capture
        (config : Config) (c : Call) (st : Globals) :
  fails c = true ->
  recordable c = true ->
  exists st',
    assume (caller c) (expr c) (msg c) (pytest_configure config st)
    = Ok (PyBool false, st')
    /\ _FAILED_ASSUMPTIONS st'
       = app (_FAILED_ASSUMPTIONS st) [call_entry c]
    /\ _ASSUMPTION_LOCALS st'
       = app (_ASSUMPTION_LOCALS st)
             (if showlocals config then [pretty_locals (caller c)] else [])
    /\ _showlocals st' = Some (showlocals config).
Proof.
  intros Hf Hr. rewrite assume_call, Hf, Hr.
  eexists. split; [reflexivity|]. repeat split.
Qed.

Lemma run_steps_quiet (between : list Step) : forall st,
  buffers_empty st ->
  (forall s, In s between -> quiet s = true) ->
  buffers_empty (fst (run_steps between st)).
Proof.
  induction between as [|[config|c|outcome] rest IH]; intros st Hst Hq;
    simpl; [exact Hst| | |].
  - apply IH; [exact Hst|]. intros s Hs. apply Hq. right. exact Hs.
  - rewrite assume_call.
    pose proof (Hq (Assume c) (or_introl eq_refl)) as Hc. simpl in Hc.
    apply negb_true_iff in Hc. rewrite Hc.
    apply IH; [exact Hst|]. intros s Hs. apply Hq. right. exact Hs.
  - rewrite wrapper_empty by apply Hst.
    specialize (IH st Hst (fun s Hs => Hq s (or_intror Hs))).
    destruct (run_steps rest st) as [st2 rs]. exact IH.
Qed.

(** C7 (amended).  Take the module right after any [finally] block,
    whatever happened before it, and let only steps follow that record
    nothing.  Then a test function starts with both buffers empty.  Its
    [finally] block returns every record it left, in call order: nothing
    when no call was recorded, and otherwise the report with the count
    and one block per recorded call.  The block leaves both buffers
    empty whatever outcome is delivered to it and however far the
    function got, and running it once more raises nothing and changes
    nothing. *)
Theorem drain_returns_all_and_clears
        (steps between : list Step) (o0 : option CallOutcome)
        (cs : list Call) (outcome outcome' : option CallOutcome) :
  (forall s, In s between -> quiet s = true) ->
  let start :=
    fst (run_steps between
           (fst (pytest_pyfunc_call o0
                   (fst (run_steps steps module_init))))) in
  let held := fst (run_calls cs start) in
  let st1 := fst (pytest_pyfunc_call outcome held) in
  buffers_empty start
  /\ _FAILED_ASSUMPTIONS held = map call_entry (recorded cs)
  /\ snd (pytest_pyfunc_call outcome held)
     = match recorded cs with
       | [] => None
       | _ :: _ =>
           Some {| raised_value :=
                     FailedAssumption
                       (original_prefix (outcome_excinfo outcome)
                        ++ (nl ++ str_of_nat (List.length (recorded cs))
                               ++ " Failed Assumptions:" ++ nl)
                        ++ (if showlocals_on start
                            then String.concat EmptyString
                                   (map item_with_locals (recorded cs))
                            else join (nl ++ nl)
                                   (map call_entry (recorded cs))));
                   raised_tb := original_tb (outcome_excinfo outcome) |}
       end
  /\ buffers_empty st1
  /\ pytest_pyfunc_call outcome' st1 = (st1, None).
Proof.
  intros Hq start held st1.
  assert (Hstart : buffers_empty start).
  { apply run_steps_quiet; [|exact Hq].
    apply wrapper_drains, run_steps_ok. unfold buffers_ok. simpl. lia. }
  assert (Hst1 : buffers_empty st1).
  { apply wrapper_drains, run_calls_ok, empty_ok, Hstart. }
  split; [exact Hstart|]. split; [|split; [|split]].
  - destruct (run_calls_fields cs start) as (H1 & _).
    destruct Hstart as [Hf _]. unfold held. rewrite H1, Hf. reflexivity.
  - destruct (run_calls_fields cs start) as (H1 & H2 & _).
    destruct Hstart as [Hf Hl]. rewrite Hf in H1. rewrite Hl in H2.
    simpl in H1, H2. fold held in H1, H2.
    destruct (recorded cs) as [|c rest] eqn:Hrec.
    + rewrite wrapper_empty by exact H1. reflexivity.
    + rewrite wrapper_nonempty by (rewrite H1; discriminate).
      simpl. rewrite H1, H2, length_map. unfold longrepr.
      destruct (showlocals_on start).
      * change (nonempty (map (fun c0 => pretty_locals (caller c0))
                              (c :: rest))) with true.
        cbv iota. rewrite combine_map_same, map_map. reflexivity.
      * reflexivity.
  - exact Hst1.
  - apply wrapper_empty. apply Hst1.
Qed.

(** C2.  The report is meant to show one entry for every falsy call.  It
    does not when a falsy call is made without a message from a frame
    whose source cannot be read.  Two falsy calls, the second such a
    one: the report counts one failure and shows one entry, with the
    [TypeError] of the second call as the original failure.  That call
    alone: no report at all, the [TypeError] reaches the runner. *)
Theorem unreadable_false_call_not_itemized :
  List.length (filter fails [Sample.call_false; Sample.call_nosource]) = 2
  /\ snd (run_test {| calls := [Sample.call_false; Sample.call_nosource];
                      ending := None |}
                   (Sample.configured false))
     = Replaced
         {| raised_value :=
              FailedAssumption
                ((nl ++ "Original Failure: " ++ nl ++ ">> "
                     ++ repr (TypeError
                                "'NoneType' object is not subscriptable")
                     ++ nl)
                 ++ (nl ++ "1 Failed Assumptions:" ++ nl)
                 ++ call_entry Sample.call_false);
            raised_tb := Some ["test_func"; "assume"] |}
  /\ snd (run_test {| calls := [Sample.call_nosource]; ending := None |}
                   (Sample.configured false))
     = Unchanged
         {| excinfo :=
              Some ("TypeError",
                    TypeError "'NoneType' object is not subscriptable",
                    ["test_func"; "assume"]) |}.
Proof. repeat split. Qed.

End Plugin.

(** * The properties on concrete runs *)

(** C8.  The locals are meant to be formatted with the length given by
    [--assume-max-repr-len].  They are not: with the option set to 5 and
    [--showlocals] on, the ten-letter local of a failed check is recorded
    in full, as formatted with the formatter's own default of 240, and
    not cut to 5. *)
Theorem max_repr_len_option_not_used :
  let cfg := {| showlocals := true; assume_max_repr_len := 5 |} in
  exists st',
    assume Sample.relpath Sample.saferepr Sample.frame_long
           (PyBool false) EmptyString (pytest_configure cfg module_init)
    = Ok (PyBool false, st')
    /\ _ASSUMPTION_LOCALS st'
       = [[tab ++ "s          = "
               ++ Sample.saferepr (PyStr "abcdefghij") 240]]
    /\ Sample.saferepr (PyStr "abcdefghij") 240 = "'abcdefghij'"
    /\ Sample.saferepr (PyStr "abcdefghij") (assume_max_repr_len cfg)
       = "'abcd".
Proof. eexists. repeat split. Qed.

(** The text of a report: three calls, two of them falsy, no hard
    failure, no [--showlocals].  The source line keeps its newline. *)
Example report_text :
  snd (run_test Sample.relpath Sample.saferepr Sample.repr
                {| calls := calls Sample.body_mixed; ending := None |}
                (Sample.configured false))
  = Replaced
      {| raised_value :=
           FailedAssumption
             (nl ++ "2 Failed Assumptions:" ++ nl
                 ++ "test_sample.py:5: AssumptionFailure" ++ nl
                 ++ ">>" ++ tab ++ "pytest.assume(a == b)" ++ nl
                 ++ nl ++ nl
                 ++ "test_sample.py:5: AssumptionFailure" ++ nl
                 ++ ">>" ++ tab ++ "a:1 b:2");
         raised_tb := None |}.
Proof. reflexivity. Qed.

(** [report_lists_each_failed_call] on three calls followed by a failing
    [assert], with [--showlocals]. *)
Lemma report_lists_each_failed_call_witness :
  buffers_empty (Sample.configured true)
  /\ (let failed := filter fails (calls Sample.body_mixed) in
      snd (run_test Sample.relpath Sample.saferepr Sample.repr
                    Sample.body_mixed (Sample.configured true))
      = Replaced
          {| raised_value :=
               FailedAssumption
                 (original_prefix Sample.repr (ending Sample.body_mixed)
                  ++ (nl ++ str_of_nat (List.length failed)
                         ++ " Failed Assumptions:" ++ nl)
                  ++ String.concat EmptyString
                       (map (item_with_locals Sample.relpath Sample.saferepr)
                            failed));
             raised_tb := Some ["test_func"; "failing_func"] |}).
Proof.
  split; [split; reflexivity|].
  apply (report_lists_each_failed_call
           Sample.relpath Sample.saferepr Sample.repr
           Sample.body_mixed (Sample.configured true)).
  - split; reflexivity.
  - intros c Hin _. simpl in Hin.
    destruct Hin as [<-|[<-|[<-|[]]]]; reflexivity.
  - exists Sample.call_false. split; [left; reflexivity|reflexivity].
Defined.

(** [original_failure_prefixed_and_traceback_kept] on one pending
    failure and an [AssertionError]. *)
Lemma original_failure_prefixed_and_traceback_kept_witness :
  let st := {| _FAILED_ASSUMPTIONS := ["test_sample.py:5: AssumptionFailure"];
               _ASSUMPTION_LOCALS := [];
               _showlocals := Some false |} in
  _FAILED_ASSUMPTIONS st <> []
  /\ pytest_pyfunc_call Sample.repr
       (Some {| excinfo := Some Sample.assertion_error |}) st
     = (clear_buffers st,
        Some {| raised_value :=
                  FailedAssumption
                    ((nl ++ "Original Failure: " ++ nl ++ ">> "
                         ++ "AssertionError('assert 1 == 2')" ++ nl)
                     ++ (nl ++ "1 Failed Assumptions:" ++ nl)
                     ++ "test_sample.py:5: AssumptionFailure");
                raised_tb := Some ["test_func"; "failing_func"] |}).
Proof.
  intros st. split; [discriminate|].
  apply (original_failure_prefixed_and_traceback_kept
           Sample.repr st "AssertionError"
           (TestError "AssertionError" "assert 1 == 2")
           ["test_func"; "failing_func"]).
  discriminate.
Defined.

(** [empty_buffer_keeps_outcome] on a passing test function, and on an
    [AssertionError] delivered to the wrapper. *)
Lemma empty_buffer_keeps_outcome_witness :
  _FAILED_ASSUMPTIONS (Sample.configured false) = []
  /\ pytest_pyfunc_call Sample.repr
       (Some {| excinfo := Some Sample.assertion_error |})
       (Sample.configured false)
     = (Sample.configured false, None)
  /\ run_test Sample.relpath Sample.saferepr Sample.repr
              Sample.body_passing (Sample.configured false)
     = (Sample.configured false, Unchanged Sample.passed).
Proof.
  split; [reflexivity|].
  apply (empty_buffer_keeps_outcome
           Sample.relpath Sample.saferepr Sample.repr
           Sample.body_passing (Sample.configured false)
           (Some {| excinfo := Some Sample.assertion_error |})).
  - reflexivity.
  - intros c Hin. simpl in Hin. destruct Hin as [<-|[]]. reflexivity.
Defined.

(** C5, as stated, fails: called on the non-empty string ['xyz'],
    [assume] returns [True], not the string. *)
Lemma assume_returns_bool_not_expr :
  assume Sample.relpath Sample.saferepr Sample.frame_ab
         (PyStr "xyz") EmptyString (Sample.configured false)
  = Ok (PyBool true, Sample.configured false)
  /\ ~ (exists st',
          assume Sample.relpath Sample.saferepr Sample.frame_ab
                 (PyStr "xyz") EmptyString (Sample.configured false)
          = Ok (PyStr "xyz", st')).
Proof.
  split; [reflexivity|]. intros [st' H]. discriminate H.
Defined.

(** [assume_returns_truth_value] on [None]. *)
Lemma assume_returns_truth_value_witness :
  truthy PyNone || str_truthy EmptyString || has_context Sample.frame_ab
  = true
  /\ (exists st',
        assume Sample.relpath Sample.saferepr Sample.frame_ab
               PyNone EmptyString (Sample.configured false)
        = Ok (PyBool false, st'))
  /\ (forall b, PyNone = PyBool b -> PyBool (truthy PyNone) = PyNone).
Proof.
  split; [reflexivity|].
  apply (assume_returns_truth_value
           Sample.relpath Sample.saferepr Sample.frame_ab
           PyNone EmptyString (Sample.configured false)).
  reflexivity.
Defined.

(** [failed_check_entry] on [0], with and without a message. *)
Lemma failed_check_entry_witness :
  truthy (PyInt 0) = false
  /\ (exists st',
        assume Sample.relpath Sample.saferepr Sample.frame_ab
               (PyInt 0) "a:1 b:2" (Sample.configured false)
        = Ok (PyBool false, st')
        /\ _FAILED_ASSUMPTIONS st'
           = ["test_sample.py:5: AssumptionFailure" ++ nl
                ++ ">>" ++ tab ++ "a:1 b:2"])
  /\ (exists st',
        assume Sample.relpath Sample.saferepr Sample.frame_ab
               (PyInt 0) EmptyString (Sample.configured false)
        = Ok (PyBool false, st')
        /\ _FAILED_ASSUMPTIONS st'
           = ["test_sample.py:5: AssumptionFailure" ++ nl
                ++ ">>" ++ tab ++ "pytest.assume(a == b)" ++ nl]).
Proof.
  split; [reflexivity|]. split.
  - apply (failed_check_entry
             Sample.relpath Sample.saferepr Sample.frame_ab
             (PyInt 0) "a:1 b:2" (Sample.configured false) eq_refl).
    reflexivity.
  - destruct (proj2 (failed_check_entry
                       Sample.relpath Sample.saferepr Sample.frame_ab
                       (PyInt 0) EmptyString (Sample.configured false)
                       eq_refl)
                    ("    pytest.assume(a == b)" ++ nl) [] eq_refl eq_refl)
      as (st' & Hret & Hentry & _).
    exists st'. split; [exact Hret|exact Hentry].
Defined.

(** C9, as stated, fails: when the second function finishes while the
    first is still running, the failure recorded by the first is raised
    against the second, which made no call of [assume] at all. *)
Lemma interleaved_units_not_isolated :
  snd (run_events Sample.relpath Sample.saferepr Sample.repr
                  Sample.interleaved (Sample.configured false))
  = [(2, Some {| raised_value :=
                   FailedAssumption
                     (nl ++ "1 Failed Assumptions:" ++ nl
                         ++ "test_sample.py:5: AssumptionFailure" ++ nl
                         ++ ">>" ++ tab ++ "pytest.assume(a == b)" ++ nl);
                 raised_tb := None |});
     (1, None)]
  /\ ~ isolated Sample.relpath Sample.saferepr Sample.repr
                Sample.interleaved (Sample.configured false).
Proof.
  split; [reflexivity|].
  intros H. specialize (H 2). vm_compute in H. discriminate H.
Defined.

(** [sequential_units_isolated] on the same two functions run one
    after the other. *)
Lemma sequential_units_isolated_witness :
  buffers_empty (Sample.configured false)
  /\ NoDup (map uid [Sample.unit_one; Sample.unit_two])
  /\ isolated Sample.relpath Sample.saferepr Sample.repr
              (flat_map block [Sample.unit_one; Sample.unit_two])
              (Sample.configured false).
Proof.
  assert (Hnd : NoDup (map uid [Sample.unit_one; Sample.unit_two])).
  { simpl. constructor.
    - simpl. intros [H|[]]. discriminate H.
    - constructor; [intros []|constructor]. }
  split; [split; reflexivity|]. split; [exact Hnd|].
  apply (sequential_units_isolated
           Sample.relpath Sample.saferepr Sample.repr
           [Sample.unit_one; Sample.unit_two] (Sample.configured false)).
  - split; reflexivity.
  - exact Hnd.
Defined.

(** [locals_buffer_tracks_failures] on three calls, two of them
    falsy. *)
Lemma locals_buffer_tracks_failures_witness :
  showlocals_on (Sample.configured true) = true
  /\ List.length (_FAILED_ASSUMPTIONS (Sample.configured true))
     = List.length (_ASSUMPTION_LOCALS (Sample.configured true))
  /\ (let st' := fst (run_calls Sample.relpath Sample.saferepr
                                (calls Sample.body_mixed)
                                (Sample.configured true)) in
      List.length (_FAILED_ASSUMPTIONS st') = 2
      /\ List.length (_ASSUMPTION_LOCALS st') = 2
      /\ combine (_FAILED_ASSUMPTIONS st') (_ASSUMPTION_LOCALS st')
         = map (fun c =>
                  (call_entry Sample.relpath c,
                   pretty_locals Sample.saferepr (caller c)))
               [Sample.call_false; Sample.call_msg]
      /\ snd (pytest_pyfunc_call Sample.repr (Some Sample.passed) st')
         = Some {| raised_value :=
                     FailedAssumption
                       (nl ++ "2 Failed Assumptions:" ++ nl
                           ++ item_with_locals Sample.relpath Sample.saferepr
                                               Sample.call_false
                           ++ item_with_locals Sample.relpath Sample.saferepr
                                               Sample.call_msg);
                   raised_tb := None |}).
Proof.
  split; [reflexivity|]. split; [reflexivity|].
  destruct (locals_buffer_tracks_failures
              Sample.relpath Sample.saferepr Sample.repr
              (calls Sample.body_mixed) (Sample.configured true)
              eq_refl eq_refl)
    as (Hf & Hl & Hlen & Hzip & Hreport & _).
  cbv zeta. split; [rewrite Hf; reflexivity|].
  split; [rewrite Hl; reflexivity|]. split; [rewrite Hzip; reflexivity|].
  rewrite (Hreport (Some Sample.passed)), Hf. reflexivity.
Defined.

(** * Further properties on concrete runs *)

Lemma assume_relocal
      (relpath : string -> string) (saferepr other : PyVal -> Z -> string)
      (f : FrameInfo -> list (string * PyVal)) (c : Call) (st : Globals) :
  showlocals_on st = false ->
  assume relpath other (caller (relocal f c)) (expr (relocal f c))
         (msg (relocal f c)) st
  = assume relpath saferepr (caller c) (expr c) (msg c) st.
Proof.
  intros Hoff. unfold assume, context_of, relocal. simpl.
  destruct (truthy (expr c)); simpl; [reflexivity|].
  assert (Hoff' : forall entry,
             showlocals_on (append_failure entry st) = false)
    by (intros entry; exact Hoff).
  destruct (str_truthy (msg c)); simpl.
  - rewrite Hoff'. reflexivity.
  - destruct (contextlist (caller c)) as [[|l ls]|]; simpl;
      rewrite ?Hoff'; reflexivity.
Qed.

Lemma run_calls_relocal
      (relpath : string -> string) (saferepr other : PyVal -> Z -> string)
      (f : FrameInfo -> list (string * PyVal)) (cs : list Call) :
  forall st,
    showlocals_on st = false ->
    run_calls relpath other (map (relocal f) cs) st
    = run_calls relpath saferepr cs st.
Proof.
  induction cs as [|c rest IH]; intros st Hoff; [reflexivity|].
  cbn [map run_calls].
  rewrite (assume_relocal relpath saferepr other f c st Hoff).
  pose proof (assume_call relpath saferepr c st) as Hc.
  destruct (assume relpath saferepr (caller c) (expr c) (msg c) st)
    as [[v st']|x]; [|reflexivity].
  apply IH.
  destruct (fails c); [destruct (recordable c)|].
  - injection Hc as _ ->. exact Hoff.
  - destruct (contextlist (caller c)) as [[|]|]; discriminate Hc.
  - injection Hc as _ ->. exact Hoff.
Qed.

(** X3.  Without [--showlocals] the local variables of the calling
    frames and the value formatter play no part: a test function made of
    the same calls from frames with other locals, formatted by another
    formatter, leaves the same state and gets the same verdict. *)
Theorem report_without_showlocals_ignores_locals
        (relpath : string -> string) (saferepr other : PyVal -> Z -> string)
        (repr : PyExc -> string)
        (f : FrameInfo -> list (string * PyVal))
        (b : TestBody) (st : Globals) :
  showlocals_on st = false ->
  run_test relpath other repr (relocal_body f b) st
  = run_test relpath saferepr repr b st.
Proof.
  intros Hoff. unfold run_test, run_body, relocal_body. simpl.
  rewrite (run_calls_relocal relpath saferepr other f (calls b) st Hoff).
  reflexivity.
Qed.

(** [report_without_showlocals_ignores_locals] on three calls whose
    frames lose their locals. *)
Lemma report_without_showlocals_ignores_locals_witness :
  showlocals_on (Sample.configured false) = false
  /\ run_test Sample.relpath (fun _ _ => "?") Sample.repr
              (relocal_body (fun _ => []) Sample.body_mixed)
              (Sample.configured false)
     = run_test Sample.relpath Sample.saferepr Sample.repr
                Sample.body_mixed (Sample.configured false).
Proof.
  split; [reflexivity|].
  apply (report_without_showlocals_ignores_locals
           Sample.relpath Sample.saferepr (fun _ _ => "?") Sample.repr
           (fun _ => []) Sample.body_mixed (Sample.configured false)).
  reflexivity.
Defined.

(** [report_stops_at_shorter_buffer] on the state reached when
    [--showlocals] is switched on between two failed calls: the block of
    the first call carries the locals of the second, and the second
    entry is not shown. *)
Lemma report_stops_at_shorter_buffer_witness :
  let st := fst (run_steps Sample.relpath Sample.saferepr Sample.repr
                   [Configure (pytest_addoption false);
                    Assume Sample.call_false;
                    Configure (pytest_addoption true);
                    Assume Sample.call_msg]
                   module_init) in
  _FAILED_ASSUMPTIONS st
  = [call_entry Sample.relpath Sample.call_false;
     call_entry Sample.relpath Sample.call_msg]
  /\ _ASSUMPTION_LOCALS st
     = [pretty_locals Sample.saferepr (caller Sample.call_msg)]
  /\ snd (pytest_pyfunc_call Sample.repr (Some Sample.passed) st)
     = Some {| raised_value :=
                 FailedAssumption
                   (nl ++ "2 Failed Assumptions:" ++ nl
                       ++ with_locals
                            (call_entry Sample.relpath Sample.call_false,
                             pretty_locals Sample.saferepr
                                           (caller Sample.call_msg)));
               raised_tb := None |}.
Proof.
  intros st. split; [reflexivity|]. split; [reflexivity|].
  apply (report_stops_at_shorter_buffer
           Sample.repr (Some Sample.passed) st
           [call_entry Sample.relpath Sample.call_false]
           [call_entry Sample.relpath Sample.call_msg]).
  - reflexivity.
  - discriminate.
  - reflexivity.
Defined.

(** [session_verdicts_independent] on a failing and a passing test
    function. *)
Lemma session_verdicts_independent_witness :
  buffers_empty (Sample.configured true)
  /\ run_session Sample.relpath Sample.saferepr Sample.repr
                 [Sample.body_mixed; Sample.body_passing]
                 (Sample.configured true)
     = (Sample.configured true,
        [snd (run_test Sample.relpath Sample.saferepr Sample.repr
                       Sample.body_mixed (Sample.configured true));
         Unchanged Sample.passed]).
Proof.
  split; [split; reflexivity|].
  apply (session_verdicts_independent
           Sample.relpath Sample.saferepr Sample.repr
           [Sample.body_mixed; Sample.body_passing]
           (Sample.configured true)).
  split; reflexivity.
Defined.

(** [lstrip_removes_leading_run] on an indented source line. *)
Lemma lstrip_removes_leading_run_witness :
  all_space "    " = true
  /\ starts_with_space ("pytest.assume(a == b)" ++ nl) = false
  /\ lstrip ("    " ++ "pytest.assume(a == b)" ++ nl)
     = "pytest.assume(a == b)" ++ nl.
Proof.
  split; [reflexivity|]. split; [reflexivity|].
  apply (lstrip_removes_leading_run "    " ("pytest.assume(a == b)" ++ nl));
    reflexivity.
Defined.

(** [unreadable_call_ends_test] on a failed call, then a call from a
    frame without source, then a call that is never made. *)
Lemma unreadable_call_ends_test_witness :
  let bad := {| caller := Sample.frame_nosource;
                expr := PyBool false;
                msg := EmptyString |} in
  buffers_empty (Sample.configured false)
  /\ fails bad = true
  /\ contextlist (caller bad) = None
  /\ run_test Sample.relpath Sample.saferepr Sample.repr
              {| calls := [Sample.call_false] ++ bad :: [Sample.call_msg];
                 ending := None |}
              (Sample.configured false)
     = (Sample.configured false,
        Replaced
          {| raised_value :=
               FailedAssumption
                 (nl ++ "Original Failure: " ++ nl ++ ">> "
                     ++ "TypeError(''NoneType' object is not subscriptable')"
                     ++ nl
                     ++ nl ++ "1 Failed Assumptions:" ++ nl
                     ++ call_entry Sample.relpath Sample.call_false);
             raised_tb := Some ["test_func"; "assume"] |}).
Proof.
  intros bad. split; [split; reflexivity|]. split; [reflexivity|].
  split; [reflexivity|].
  apply (unreadable_call_ends_test
           Sample.relpath Sample.saferepr Sample.repr
           [Sample.call_false] [Sample.call_msg] bad None
           (Sample.configured false)).
  - split; reflexivity.
  - intros c Hin _. simpl in Hin. destruct Hin as [<-|[]]. reflexivity.
  - reflexivity.
  - reflexivity.
  - reflexivity.
Defined.

(** [configure_decides_capture] on a failed call after a run was
    configured with [--showlocals]. *)
Lemma configure_decides_capture_witness :
  fails Sample.call_false = true
  /\ recordable Sample.call_false = true
  /\ exists st',
       assume Sample.relpath Sample.saferepr
              (caller Sample.call_false) (expr Sample.call_false)
              (msg Sample.call_false)
              (pytest_configure (pytest_addoption true) module_init)
       = Ok (PyBool false, st')
       /\ _ASSUMPTION_LOCALS st'
          = [[tab ++ "a          = 1"; tab ++ "b          = 2"]].
Proof.
  split; [reflexivity|]. split; [reflexivity|].
  destruct (configure_decides_capture
              Sample.relpath Sample.saferepr
              (pytest_addoption true) Sample.call_false module_init
              eq_refl eq_refl)
    as (st' & Hret & _ & Hlocals & _).
  exists st'. split; [exact Hret|exact Hlocals].
Defined.

(** C7, as stated, fails: a check that fails after the [finally] block
    of one test function, in its teardown, stays in the buffer; the next
    test function starts with it and is failed for it though all its own
    checks pass. *)
Lemma failure_outside_wrapper_leaks :
  _FAILED_ASSUMPTIONS
    (fst (run_steps Sample.relpath Sample.saferepr Sample.repr
                    Sample.teardown_failure module_init))
  = [call_entry Sample.relpath Sample.call_false]
  /\ ~ buffers_empty
         (fst (run_steps Sample.relpath Sample.saferepr Sample.repr
                         Sample.teardown_failure module_init))
  /\ snd (run_test Sample.relpath Sample.saferepr Sample.repr
                   Sample.body_passing
                   (fst (run_steps Sample.relpath Sample.saferepr Sample.repr
                                   Sample.teardown_failure module_init)))
     = Replaced
         {| raised_value :=
              FailedAssumption
                (nl ++ "1 Failed Assumptions:" ++ nl
                    ++ call_entry Sample.relpath Sample.call_false);
            raised_tb := None |}.
Proof.
  split; [reflexivity|]. split; [|reflexivity].
  intros [Hf _]. discriminate Hf.
Defined.

(** [drain_returns_all_and_clears] on a test function with two recorded
    failures that starts after a passing check made in a fixture. *)
Lemma drain_returns_all_and_clears_witness :
  (forall s, In s [Assume Sample.call_true] -> quiet s = true)
  /\ (let start :=
        fst (run_steps Sample.relpath Sample.saferepr Sample.repr
               [Assume Sample.call_true]
               (fst (pytest_pyfunc_call Sample.repr (Some Sample.passed)
                       (fst (run_steps Sample.relpath Sample.saferepr
                                       Sample.repr Sample.teardown_failure
                                       module_init))))) in
      let held := fst (run_calls Sample.relpath Sample.saferepr
                                 (calls Sample.body_mixed) start) in
      buffers_empty start
      /\ snd (pytest_pyfunc_call Sample.repr (Some Sample.passed) held)
         = Some {| raised_value :=
                     FailedAssumption
                       (nl ++ "2 Failed Assumptions:" ++ nl
                           ++ call_entry Sample.relpath Sample.call_false
                           ++ nl ++ nl
                           ++ call_entry Sample.relpath Sample.call_msg);
                   raised_tb := None |}
      /\ buffers_empty
           (fst (pytest_pyfunc_call Sample.repr (Some Sample.passed) held))).
Proof.
  assert (Hq : forall s, In s [Assume Sample.call_true] -> quiet s = true).
  { intros s [<-|[]]. reflexivity. }
  split; [exact Hq|].
  destruct (drain_returns_all_and_clears
              Sample.relpath Sample.saferepr Sample.repr
              Sample.teardown_failure [Assume Sample.call_true]
              (Some Sample.passed) (calls Sample.body_mixed)
              (Some Sample.passed) None Hq)
    as (Hstart & _ & Hreport & Hst1 & _).
  cbv zeta. split; [exact Hstart|]. split; [exact Hreport|exact Hst1].
Defined.

(** [message_spares_context] on a failed call with a message, from a
    frame whose source cannot be read. *)
Lemma message_spares_context_witness :
  truthy (PyInt 0) || str_truthy "a:1 b:2" = true
  /\ assume Sample.relpath Sample.saferepr
            (with_context None Sample.frame_ab) (PyInt 0) "a:1 b:2"
            (Sample.configured true)
     = assume Sample.relpath Sample.saferepr
              Sample.frame_ab (PyInt 0) "a:1 b:2" (Sample.configured true).
Proof.
  split; [reflexivity|].
  apply (message_spares_context
           Sample.relpath Sample.saferepr Sample.frame_ab None
           (PyInt 0) "a:1 b:2" (Sample.configured true)).
  reflexivity.
Defined.
